(** * Tiny Tiger Coffee storefront: cart, checkout and stock decrement

    A shallow embedding of the business logic of the storefront:
    - [src/contexts/CartContext.tsx]   (the cart aggregator),
    - [src/pages/Checkout.tsx]         (step-1 validation, order placement),
    - the [useRazorpay] hook           (the payment handle),
    - [src/pages/admin/Orders.tsx]     (status changes, stock decrement).

    Conventions of the model.
    - Numbers that hold counts ([quantity], [stock_count], [currentStep])
      are integers [Z].  Money in the store's NUMERIC columns ([price],
      [total_amount]) is an exact rational [Q].
    - The client computes with IEEE 754 doubles.  [Double] gives the cart
      total and the gateway amount as the client computes them, on
      [PrimFloat]; [CartProvider.totalPrice] and [Checkout.payment_amount]
      are the same expressions in exact arithmetic, which is what order
      placement is stated with.  The two readings agree while no operation
      rounds, as with the whole-rupee prices of [Sample]; [Double] shows
      where they part.
    - The hosted database is a record of tables, each a list of rows in
      table order.  A remote call either fails as a whole (the client
      returns [error], modelled by [None]) or is applied to the tables.
      Which calls fail is decided by the environment ([fails]), indexed by
      the number of remote calls issued so far.
    - React state cells ([items], [currentStep], [orders], ...) live in the
      world; an event handler reads them through the snapshot of the render
      that created it and writes them with the setters. *)

From Stdlib Require Import List String Ascii Bool ZArith QArith Qabs Qround Lia.
From Stdlib Require Import Floats.
Import ListNotations.
Local Open Scope string_scope.
Local Open Scope list_scope.
Local Open Scope Z_scope.

(** ** Rows and values *)

Module User.
Record t := mk { id : string; email : string }.
End User.

(** [interface CartItem] of CartContext.tsx. *)
Module CartItem.
Record t := mk {
  id : string;
  product_id : string;
  product_name : string;
  product_image : string;
  price : Q;
  quantity : Z;
  grind_type : string;
  bag_size : string }.

(** [{ ...item, quantity }] *)
Definition with_quantity (q : Z) (i : t) : t :=
  mk (id i) (product_id i) (product_name i) (product_image i)
     (price i) q (grind_type i) (bag_size i).
End CartItem.

(** [Omit<CartItem, "id">], the argument of [addToCart]. *)
Module NewCartItem.
Record t := mk {
  product_id : string;
  product_name : string;
  product_image : string;
  price : Q;
  quantity : Z;
  grind_type : string;
  bag_size : string }.

End NewCartItem.

(** A row of table [cart_items]: the cart line and its owner. *)
Module CartRow.
Record t := mk { user_id : string; item : CartItem.t }.
End CartRow.

Module ShippingInfo.
Record t := mk {
  name : string;
  email : string;
  phone : string;
  address : string;
  city : string;
  state : string;
  pincode : string }.
End ShippingInfo.

(** A row of table [orders] ([interface Order] of admin/Orders.tsx). *)
Module Order.
Record t := mk {
  id : string;
  user_id : string;
  status : string;
  total_amount : Q;
  shipping : ShippingInfo.t;
  payment_status : string;
  payment_id : option string;
  created_at : Z }.

Definition with_status (s : string) (o : t) : t :=
  mk (id o) (user_id o) s (total_amount o) (shipping o)
     (payment_status o) (payment_id o) (created_at o).

Definition with_payment (ps : string) (pid : option string) (o : t) : t :=
  mk (id o) (user_id o) (status o) (total_amount o) (shipping o)
     ps pid (created_at o).
End Order.

(** The object built per cart line in [handlePlaceOrder]. *)
Module NewOrderItem.
Record t := mk {
  order_id : string;
  product_name : string;
  grind_type : string;
  bag_size : string;
  quantity : Z;
  unit_price : Q }.
End NewOrderItem.

(** A row of table [order_items]. *)
Module OrderItem.
Record t := mk { id : string; fields : NewOrderItem.t }.
Definition order_id (r : t) := NewOrderItem.order_id (fields r).
Definition product_name (r : t) := NewOrderItem.product_name (fields r).
Definition grind_type (r : t) := NewOrderItem.grind_type (fields r).
Definition bag_size (r : t) := NewOrderItem.bag_size (fields r).
Definition quantity (r : t) := NewOrderItem.quantity (fields r).
Definition unit_price (r : t) := NewOrderItem.unit_price (fields r).
End OrderItem.

Module Product.
Record t := mk { id : string; name : string }.
End Product.

Module Variant.
Record t := mk {
  id : string;
  product_id : string;
  size : string;
  grind_type : string;
  price : Q;
  stock_count : Z }.

Definition with_stock_count (n : Z) (v : t) : t :=
  mk (id v) (product_id v) (size v) (grind_type v) (price v) n.
End Variant.

(** ** The remote store *)

Module Store.
Record t := mk {
  cart_items : list CartRow.t;
  orders : list Order.t;
  order_items : list OrderItem.t;
  products : list Product.t;
  variants : list Variant.t }.

Definition set_cart_items (l : list CartRow.t) (d : t) : t :=
  mk l (orders d) (order_items d) (products d) (variants d).
Definition set_orders (l : list Order.t) (d : t) : t :=
  mk (cart_items d) l (order_items d) (products d) (variants d).
Definition set_order_items (l : list OrderItem.t) (d : t) : t :=
  mk (cart_items d) (orders d) l (products d) (variants d).
Definition set_variants (l : list Variant.t) (d : t) : t :=
  mk (cart_items d) (orders d) (order_items d) (products d) l.
End Store.

(** ** Effects *)

(** What the Razorpay widget does once opened: the handler fires with a
    payment id, the user dismisses the modal, the gateway reports
    [payment.failed], or the constructor throws. *)
Inductive GatewayOutcome :=
| Paid (razorpay_payment_id : string)
| Dismissed
| PaymentFailed
| Threw.

(** The fields of [RazorpayOptions] that carry data. *)
Record RazorpayOptions := {
  rz_key : string;
  rz_amount : Q;
  rz_currency : string;
  rz_name : string;
  rz_description : string }.

Inductive Event :=
| Toast (title : string)
| ConsoleError (message : string)
| Navigate (path : string)
| RazorpayOpen (options : RazorpayOptions).

(** Everything the handlers do not control. *)
Record Env := {
  fails : nat -> bool;
  gen_random_uuid : nat -> string;
  now : nat -> Z;
  (** [window.Razorpay]; [None] when the SDK script did not load *)
  Razorpay : option (RazorpayOptions -> GatewayOutcome);
  (** [import.meta.env.VITE_RAZORPAY_KEY_ID] *)
  razorpayKeyId : option string }.

Module World.
Record t := mk {
  env : Env;
  db : Store.t;
  calls : nat;
  minted : nat;
  log : list Event;
  (** AuthContext *)
  user : option User.t;
  (** CartProvider *)
  items : list CartItem.t;
  (** Checkout *)
  currentStep : Z;
  loading : bool;
  paymentMethod : string;
  shippingInfo : ShippingInfo.t;
  (** AdminOrders *)
  orders : list Order.t;
  selectedOrder : option Order.t }.

Definition set_db (x : Store.t) (w : t) : t :=
  mk (env w) x (calls w) (minted w) (log w) (user w) (items w)
     (currentStep w) (loading w) (paymentMethod w) (shippingInfo w)
     (orders w) (selectedOrder w).
Definition set_calls (x : nat) (w : t) : t :=
  mk (env w) (db w) x (minted w) (log w) (user w) (items w) (currentStep
     w) (loading w) (paymentMethod w) (shippingInfo w) (orders w)
     (selectedOrder w).
Definition set_minted (x : nat) (w : t) : t :=
  mk (env w) (db w) (calls w) x (log w) (user w) (items w) (currentStep
     w) (loading w) (paymentMethod w) (shippingInfo w) (orders w)
     (selectedOrder w).
Definition set_log (x : list Event) (w : t) : t :=
  mk (env w) (db w) (calls w) (minted w) x (user w) (items w)
     (currentStep w) (loading w) (paymentMethod w) (shippingInfo w)
     (orders w) (selectedOrder w).
Definition set_items (x : list CartItem.t) (w : t) : t :=
  mk (env w) (db w) (calls w) (minted w) (log w) (user w) x (currentStep
     w) (loading w) (paymentMethod w) (shippingInfo w) (orders w)
     (selectedOrder w).
Definition set_currentStep (x : Z) (w : t) : t :=
  mk (env w) (db w) (calls w) (minted w) (log w) (user w) (items w) x
     (loading w) (paymentMethod w) (shippingInfo w) (orders w)
     (selectedOrder w).
Definition set_loading (x : bool) (w : t) : t :=
  mk (env w) (db w) (calls w) (minted w) (log w) (user w) (items w)
     (currentStep w) x (paymentMethod w) (shippingInfo w) (orders w)
     (selectedOrder w).
Definition set_orders (x : list Order.t) (w : t) : t :=
  mk (env w) (db w) (calls w) (minted w) (log w) (user w) (items w)
     (currentStep w) (loading w) (paymentMethod w) (shippingInfo w) x
     (selectedOrder w).
Definition set_selectedOrder (x : option Order.t) (w : t) : t :=
  mk (env w) (db w) (calls w) (minted w) (log w) (user w) (items w)
     (currentStep w) (loading w) (paymentMethod w) (shippingInfo w)
     (orders w) x.
End World.

(** A handler is a state transformer over the world. *)
Definition M (A : Type) : Type := World.t -> A * World.t.

Definition ret {A} (a : A) : M A := fun w => (a, w).
Definition bind {A B} (m : M A) (k : A -> M B) : M B :=
  fun w => let (a, w') := m w in k a w'.

Declare Scope handler_scope.
Delimit Scope handler_scope with handler.
Notation "x <- m ;; k" := (bind m (fun x => k))
  (at level 61, m at next level, right associativity) : handler_scope.
Notation "m ;; k" := (bind m (fun _ => k))
  (at level 61, right associativity) : handler_scope.
Local Open Scope handler_scope.

Definition exec {A} (m : M A) (w : World.t) : World.t := snd (m w).

Definition emit (e : Event) : M unit :=
  fun w => (tt, World.set_log (World.log w ++ [e]) w).
Definition toast (title : string) : M unit := emit (Toast title).
Definition console_error (message : string) : M unit :=
  emit (ConsoleError message).
Definition navigate (path : string) : M unit := emit (Navigate path).

(** One awaited call of the store client.  [None] is the [error] result and
    leaves the tables as they were. *)
Definition remote {A} (q : Store.t -> A * Store.t) : M (option A) :=
  fun w =>
    let w' := World.set_calls (S (World.calls w)) w in
    if fails (World.env w) (World.calls w) then (None, w')
    else let (a, d) := q (World.db w) in (Some a, World.set_db d w').

(** Ids the store generates for inserted rows ([DEFAULT gen_random_uuid()]). *)
Definition mint : M string :=
  fun w => (gen_random_uuid (World.env w) (World.minted w),
            World.set_minted (S (World.minted w)) w).

Fixpoint mint_many (n : nat) : M (list string) :=
  match n with
  | O => ret []
  | S n' => i <- mint ;; l <- mint_many n' ;; ret (i :: l)
  end.

Definition timestamp : M Z :=
  fun w => (now (World.env w) (World.calls w), w).

(** ** Cart aggregator (src/contexts/CartContext.tsx) *)

Module CartProvider.

(** What the closures of one render see. *)
Record t := mk { user : option User.t; items : list CartItem.t }.


(** The reduce of [totalPrice], read in exact arithmetic; [Double.totalPrice]
    below is the same reduce in the doubles the client computes with. *)
Definition totalPrice (self : t) : Q :=
  fold_left
    (fun sum item =>
       (sum + CartItem.price item * inject_Z (CartItem.quantity item))%Q)
    (items self) 0%Q.


(** [.from("cart_items").delete().eq("id", id)] *)
Definition delete_by_id (id : string) (d : Store.t) : unit * Store.t :=
  (tt, Store.set_cart_items
         (filter (fun r => negb (CartItem.id (CartRow.item r) =? id)%string)
                 (Store.cart_items d)) d).

(** [.from("cart_items").delete().eq("user_id", user.id)] *)
Definition delete_by_user (uid : string) (d : Store.t) : unit * Store.t :=
  (tt, Store.set_cart_items
         (filter (fun r => negb (CartRow.user_id r =? uid)%string)
                 (Store.cart_items d)) d).

(** [.from("cart_items").update({ quantity }).eq("id", id)] *)
Definition update_quantity (id : string) (quantity : Z) (d : Store.t)
  : unit * Store.t :=
  (tt, Store.set_cart_items
         (map (fun r =>
                 if (CartItem.id (CartRow.item r) =? id)%string
                 then CartRow.mk (CartRow.user_id r)
                        (CartItem.with_quantity quantity (CartRow.item r))
                 else r)
              (Store.cart_items d)) d).



Definition setItems (l : list CartItem.t) : M unit :=
  fun w => (tt, World.set_items l w).

Definition removeFromCart (self : t) (id : string) : M unit :=
  r <- remote (delete_by_id id) ;;
  match r with
  | None => console_error "Error removing from cart:"
  | Some _ =>
      setItems
        (filter (fun item => negb (CartItem.id item =? id)%string)
                (items self)) ;;
      toast "Removed from cart"
  end.

Definition updateQuantity (self : t) (id : string) (quantity : Z) : M unit :=
  if quantity <=? 0 then removeFromCart self id
  else
    r <- remote (update_quantity id quantity) ;;
    match r with
    | None => console_error "Error updating quantity:"
    | Some _ =>
        setItems
          (map (fun item =>
                  if (CartItem.id item =? id)%string
                  then CartItem.with_quantity quantity item
                  else item)
               (items self))
    end.


Definition clearCart (self : t) : M unit :=
  match user self with
  | None => ret tt
  | Some u =>
      r <- remote (delete_by_user (User.id u)) ;;
      match r with
      | None => console_error "Error clearing cart:"
      | Some _ => setItems []
      end
  end.



(** The render that creates the closures. *)
Definition render (w : World.t) : t := mk (World.user w) (World.items w).

(** An event handler runs with the closures of the current render. *)
Definition on {A} (h : t -> M A) : M A := fun w => h (render w) w.





Definition sum_line_totals (l : list CartItem.t) : Q :=
  fold_right Qplus 0%Q
    (map (fun i => (CartItem.price i * inject_Z (CartItem.quantity i))%Q) l).

End CartProvider.

(** ** The cart total as the client computes it *)

Module Double.

(** A JavaScript number is an IEEE 754 double.  [of_Z] is the double of an
    integer, exact below 2^53; [of_Q] is the double nearest to a decimal of
    the store's NUMERIC columns (numerator and denominator below 2^53: the
    division of two exact doubles is correctly rounded), which is what the
    client reads from the JSON it receives. *)
Definition of_Z (z : Z) : float :=
  match z with
  | Z0 => 0%float
  | Zpos _ => PrimFloat.of_uint63 (Uint63.of_Z z)
  | Zneg p => (- PrimFloat.of_uint63 (Uint63.of_Z (Zpos p)))%float
  end.

Definition of_Q (q : Q) : float :=
  (of_Z (Qnum q) / of_Z (Zpos (Qden q)))%float.

Definition price (i : CartItem.t) : float := of_Q (CartItem.price i).
Definition quantity (i : CartItem.t) : float := of_Z (CartItem.quantity i).

(** [items.reduce((sum, item) => sum + item.price * item.quantity, 0)] *)
Definition totalPrice (self : CartProvider.t) : float :=
  fold_left (fun sum item => (sum + price item * quantity item)%float)
            (CartProvider.items self) 0%float.

(** The value of a finite double. *)
Definition to_Q (x : float) : option Q :=
  match Prim2SF x with
  | S754_zero _ => Some 0%Q
  | S754_finite s m e =>
      let n := if s then Zneg m else Zpos m in
      Some (match e with
            | Zneg k => n # (2 ^ k)
            | _ => inject_Z (n * 2 ^ e)
            end)
  | _ => None
  end.

(** [Math.round]: the nearest integer, halves upwards.  NaN, the
    infinities and doubles from 2^52 on (integers already) are returned
    as they are; a negative argument that rounds to zero gives -0. *)
Definition Math_round (x : float) : float :=
  match to_Q x with
  | None => x
  | Some q =>
      if Qle_bool (inject_Z (2 ^ 52)) (Qabs q) then x
      else
        let z := Qfloor (q + (1 # 2))%Q in
        if (z =? 0) && PrimFloat.get_sign x then (- 0)%float else of_Z z
  end.

(** [Math.round(totalPrice * 100) / 1000] of Checkout.tsx. *)
Definition payment_amount (totalPrice : float) : float :=
  (Math_round (totalPrice * 100) / 1000)%float.

End Double.


(** ** Payment handle (useRazorpay) *)

Module Razorpay.

(** [interface PaymentOptions]; the callbacks are handlers themselves. *)
Record PaymentOptions := {
  amount : Q;
  currency : option string;
  name : string;
  description : string;
  onSuccess : M unit;
  onError : M unit;
  onDismiss : M unit }.

Definition isLoaded : M bool :=
  fun w =>
    (match Razorpay (World.env w) with Some _ => true | None => false end,
     w).

(** The promise of [openPayment]: [Some response] when it resolves, [None]
    when it rejects. *)
Definition openPayment (options : PaymentOptions) : M (option string) :=
  fun w =>
    match Razorpay (World.env w) with
    | None => (onError options ;; ret None) w
    | Some sdk =>
        match razorpayKeyId (World.env w) with
        | None => (onError options ;; ret None) w
        | Some key =>
            if (key =? "")%string then (onError options ;; ret None) w
            else
              let razorpayOptions :=
                {| rz_key := key;
                   rz_amount := amount options;
                   rz_currency :=
                     match currency options with
                     | Some c => if (c =? "")%string then "INR" else c
                     | None => "INR"
                     end;
                   rz_name := name options;
                   rz_description := description options |} in
              (emit (RazorpayOpen razorpayOptions) ;;
               match sdk razorpayOptions with
               | Paid payment_id => onSuccess options ;; ret (Some payment_id)
               | Dismissed => onDismiss options ;; ret None
               | PaymentFailed => onError options ;; ret None
               | Threw => onError options ;; ret None
               end) w
        end
    end.

End Razorpay.

(** ** Checkout (src/pages/Checkout.tsx) *)

Module Checkout.

Record t := mk {
  user : option User.t;
  cart : CartProvider.t;
  currentStep : Z;
  paymentMethod : string;
  shippingInfo : ShippingInfo.t }.

Definition render (w : World.t) : t :=
  mk (World.user w) (CartProvider.render w) (World.currentStep w)
     (World.paymentMethod w) (World.shippingInfo w).

Definition on {A} (h : t -> M A) : M A := fun w => h (render w) w.

(** [\d] *)
Definition is_digit (c : ascii) : bool :=
  ((48 <=? nat_of_ascii c) && (nat_of_ascii c <=? 57))%nat.

(** [/^\d{n}$/.test(s)]: the whole of [s] is [n] digits. *)
Fixpoint test_digits (n : nat) (s : string) : bool :=
  match n, s with
  | O, EmptyString => true
  | S n', String c s' => is_digit c && test_digits n' s'
  | _, _ => false
  end.

(** [!s] for a string. *)
Definition falsy (s : string) : bool := (s =? "")%string.

Definition validateShipping (self : t) : M bool :=
  let s := shippingInfo self in
  if falsy (ShippingInfo.name s) || falsy (ShippingInfo.email s)
     || falsy (ShippingInfo.phone s) || falsy (ShippingInfo.address s)
     || falsy (ShippingInfo.city s) || falsy (ShippingInfo.state s)
     || falsy (ShippingInfo.pincode s)
  then toast "Missing Information" ;; ret false
  else if negb (test_digits 6 (ShippingInfo.pincode s))
  then toast "Invalid Pincode" ;; ret false
  else if negb (test_digits 10 (ShippingInfo.phone s))
  then toast "Invalid Phone" ;; ret false
  else ret true.

(** [setCurrentStep(prev => Math.min(prev + 1, 3))] *)
Definition advance : M unit :=
  fun w => (tt, World.set_currentStep (Z.min (World.currentStep w + 1) 3) w).

Definition handleNextStep (self : t) : M unit :=
  if currentStep self =? 1 then
    ok <- validateShipping self ;;
    if negb ok then ret tt else advance
  else advance.

Definition setLoading (b : bool) : M unit :=
  fun w => (tt, World.set_loading b w).

(** [Math.round]: the nearest integer, halves upwards. *)
Definition Math_round (x : Q) : Z := Qfloor (x + (1 # 2))%Q.

(** The [amount] expression of [handlePlaceOrder]. *)
Definition payment_amount (totalPrice : Q) : Q :=
  (inject_Z (Math_round (totalPrice * 100)) / 1000)%Q.

(** [.from("orders").insert({...}).select().single()]; the store fills in
    [id], [payment_id] and [created_at]. *)
Definition insert_order (new_id : string) (ts : Z) (uid : string)
           (total : Q) (s : ShippingInfo.t) (d : Store.t)
  : Order.t * Store.t :=
  let order := Order.mk new_id uid "new" total s "pending" None ts in
  (order, Store.set_orders (Store.orders d ++ [order]) d).

(** [.from("order_items").insert(orderItems)] *)
Definition insert_order_items (ids : list string)
           (orderItems : list NewOrderItem.t) (d : Store.t)
  : unit * Store.t :=
  (tt, Store.set_order_items
         (Store.order_items d
          ++ map (fun p => OrderItem.mk (fst p) (snd p))
                 (combine ids orderItems)) d).

(** [.from("orders").update({ payment_status, payment_id }).eq("id", id)] *)
Definition update_payment (id payment_status : string)
           (payment_id : string) (d : Store.t) : unit * Store.t :=
  (tt, Store.set_orders
         (map (fun o =>
                 if (Order.id o =? id)%string
                 then Order.with_payment payment_status (Some payment_id) o
                 else o)
              (Store.orders d)) d).

(** [.from("orders").update({ payment_status }).eq("id", id)] *)
Definition update_payment_status (id payment_status : string) (d : Store.t)
  : unit * Store.t :=
  (tt, Store.set_orders
         (map (fun o =>
                 if (Order.id o =? id)%string
                 then Order.with_payment payment_status (Order.payment_id o) o
                 else o)
              (Store.orders d)) d).

(** The [catch] of the outer [try]. *)
Definition order_failed : M unit :=
  console_error "Order error:" ;; toast "Order Failed".

Definition order_item_of (order : Order.t) (item : CartItem.t)
  : NewOrderItem.t :=
  NewOrderItem.mk (Order.id order) (CartItem.product_name item)
    (CartItem.grind_type item) (CartItem.bag_size item)
    (CartItem.quantity item) (CartItem.price item).

Definition handlePlaceOrder (self : t) : M unit :=
  match user self with
  | None => ret tt
  | Some u =>
      let items := CartProvider.items (cart self) in
      let totalPrice := CartProvider.totalPrice (cart self) in
      setLoading true ;;
      (new_id <- mint ;;
       ts <- timestamp ;;
       r <- remote (insert_order new_id ts (User.id u) totalPrice
                      (shippingInfo self)) ;;
       match r with
       | None => order_failed
       | Some order =>
           let orderItems := map (order_item_of order) items in
           ids <- mint_many (List.length orderItems) ;;
           r <- remote (insert_order_items ids orderItems) ;;
           match r with
           | None => order_failed
           | Some _ =>
               if (paymentMethod self =? "razorpay")%string then
                 loaded <- Razorpay.isLoaded ;;
                 if negb loaded then
                   toast "Payment Gateway Error" ;;
                   setLoading false
                 else
                   response <-
                     Razorpay.openPayment
                       {| Razorpay.amount := payment_amount totalPrice;
                          Razorpay.currency := None;
                          Razorpay.name := "Tiny Tiger Coffee";
                          Razorpay.description :=
                            ("Order #"
                             ++ substring 0 8 (Order.id order))%string;
                          Razorpay.onSuccess := ret tt;
                          Razorpay.onError := console_error "Payment error:";
                          Razorpay.onDismiss := ret tt |} ;;
                   match response with
                   | Some razorpay_payment_id =>
                       remote (update_payment (Order.id order) "success"
                                 razorpay_payment_id) ;;
                       CartProvider.clearCart (cart self) ;;
                       toast "Payment Successful!" ;;
                       navigate "/profile"
                   | None =>
                       console_error "Payment cancelled or failed:" ;;
                       remote (update_payment_status (Order.id order)
                                 "failed") ;;
                       toast "Payment Cancelled"
                   end
               else
                 remote (update_payment_status (Order.id order) "pending") ;;
                 CartProvider.clearCart (cart self) ;;
                 toast "Order Placed Successfully!" ;;
                 navigate "/profile"
           end
       end) ;;
      setLoading false
  end.

(** The order row [handlePlaceOrder] inserts. *)
Definition new_order (w : World.t) (u : User.t) : Order.t :=
  Order.mk (gen_random_uuid (World.env w) (World.minted w)) (User.id u)
    "new" (CartProvider.totalPrice (CartProvider.render w))
    (World.shippingInfo w) "pending" None
    (now (World.env w) (World.calls w)).

(** An order line copies the cart line. *)
Definition copied (order : Order.t) (row : OrderItem.t) (item : CartItem.t)
  : Prop :=
  OrderItem.order_id row = Order.id order
  /\ OrderItem.product_name row = CartItem.product_name item
  /\ OrderItem.grind_type row = CartItem.grind_type item
  /\ OrderItem.bag_size row = CartItem.bag_size item
  /\ OrderItem.quantity row = CartItem.quantity item
  /\ OrderItem.unit_price row = CartItem.price item.

(** What step-1 validation is meant to accept. *)
Definition all_digits (s : string) : Prop :=
  Forall (fun c => is_digit c = true) (list_ascii_of_string s).

Definition shipping_ok (s : ShippingInfo.t) : Prop :=
  ShippingInfo.name s <> "" /\ ShippingInfo.email s <> ""
  /\ ShippingInfo.phone s <> "" /\ ShippingInfo.address s <> ""
  /\ ShippingInfo.city s <> "" /\ ShippingInfo.state s <> ""
  /\ ShippingInfo.pincode s <> ""
  /\ (String.length (ShippingInfo.phone s) = 10%nat
      /\ all_digits (ShippingInfo.phone s))
  /\ (String.length (ShippingInfo.pincode s) = 6%nat
      /\ all_digits (ShippingInfo.pincode s)).

End Checkout.


(** ** Admin order view (src/pages/admin/Orders.tsx) *)

Module AdminOrders.

Record t := mk { orders : list Order.t; selectedOrder : option Order.t }.

Definition render (w : World.t) : t :=
  mk (World.orders w) (World.selectedOrder w).

Definition on {A} (h : t -> M A) : M A := fun w => h (render w) w.

(** [.order("created_at", { ascending: false })]: newest first; rows of
    equal age keep their table order. *)
Fixpoint insert_desc (o : Order.t) (l : list Order.t) : list Order.t :=
  match l with
  | [] => [o]
  | x :: l' =>
      if Order.created_at x <? Order.created_at o then o :: l
      else x :: insert_desc o l'
  end.

Definition order_desc (l : list Order.t) : list Order.t :=
  fold_right insert_desc [] l.

(** [.from("orders").select("*").order("created_at", { ascending: false })] *)
Definition select_orders (d : Store.t) : list Order.t * Store.t :=
  (order_desc (Store.orders d), d).

(** [.from("orders").update({ status: newStatus }).eq("id", orderId)] *)
Definition update_status (orderId newStatus : string) (d : Store.t)
  : unit * Store.t :=
  (tt, Store.set_orders
         (map (fun o =>
                 if (Order.id o =? orderId)%string
                 then Order.with_status newStatus o
                 else o)
              (Store.orders d)) d).

(** [.from("order_items").select("*").eq("order_id", orderId)] *)
Definition select_order_items (orderId : string) (d : Store.t)
  : list OrderItem.t * Store.t :=
  (filter (fun r => (OrderItem.order_id r =? orderId)%string)
          (Store.order_items d), d).

(** [.from("products").select("id").eq("name", name).limit(1)] *)
Definition select_product_id (name : string) (d : Store.t)
  : list string * Store.t :=
  (firstn 1 (map Product.id
               (filter (fun p => (Product.name p =? name)%string)
                       (Store.products d))), d).

(** [.from("variants").select("id, stock_count").eq("product_id", productId)
     .eq("grind_type", grind).eq("size", size).limit(1)] *)
Definition select_variant (productId grind size : string) (d : Store.t)
  : list (string * Z) * Store.t :=
  (firstn 1 (map (fun v => (Variant.id v, Variant.stock_count v))
               (filter (fun v =>
                          (Variant.product_id v =? productId)%string
                          && (Variant.grind_type v =? grind)%string
                          && (Variant.size v =? size)%string)
                       (Store.variants d))), d).

(** [.from("variants").update({ stock_count }).eq("id", id)] *)
Definition update_stock_count (id : string) (stock_count : Z) (d : Store.t)
  : unit * Store.t :=
  (tt, Store.set_variants
         (map (fun v =>
                 if (Variant.id v =? id)%string
                 then Variant.with_stock_count stock_count v
                 else v)
              (Store.variants d)) d).

Definition setOrders (l : list Order.t) : M unit :=
  fun w => (tt, World.set_orders l w).

Definition fetchOrders : M unit :=
  r <- remote select_orders ;;
  match r with
  | None => console_error "Error fetching orders:"
  | Some data => setOrders data
  end.

(** The condition computed at the top of [handleStatusChange];
    [previousStatus] is [undefined] when the order is not in the list. *)
Definition shouldDecrementStock (previousStatus : option string)
           (newStatus : string) : bool :=
  match previousStatus with
  | Some previousStatus =>
      ((previousStatus =? "new") || (previousStatus =? "processing"))%string
      && ((newStatus =? "shipped") || (newStatus =? "completed"))%string
  | None => false
  end.

(** The body of the [for (const item of items)] loop. *)
Definition decrementStockForItem (item : OrderItem.t) : M unit :=
  products <- remote (select_product_id (OrderItem.product_name item)) ;;
  match products with
  | None | Some [] => console_error "Product not found"
  | Some (productId :: _) =>
      variants <- remote (select_variant productId
                            (OrderItem.grind_type item)
                            (OrderItem.bag_size item)) ;;
      match variants with
      | None | Some [] => console_error "Variant not found"
      | Some ((variant_id, variant_stock_count) :: _) =>
          let newStockCount :=
            Z.max 0 (variant_stock_count - OrderItem.quantity item) in
          r <- remote (update_stock_count variant_id newStockCount) ;;
          match r with
          | None => console_error "Error updating stock for variant"
          | Some _ => ret tt
          end
      end
  end.

Fixpoint for_each {A} (body : A -> M unit) (l : list A) : M unit :=
  match l with
  | [] => ret tt
  | x :: l' => body x ;; for_each body l'
  end.

Definition decrementStockForOrder (orderId : string) : M unit :=
  r <- remote (select_order_items orderId) ;;
  match r with
  | None => console_error "Error fetching order items:"
  | Some items => for_each decrementStockForItem items
  end.

(** [setSelectedOrder(prev => prev ? { ...prev, status: newStatus } : null)] *)
Definition restatusSelected (newStatus : string) : M unit :=
  fun w =>
    (tt, World.set_selectedOrder
           (option_map (Order.with_status newStatus) (World.selectedOrder w))
           w).

Definition handleStatusChange (self : t) (orderId newStatus : string)
  : M unit :=
  let currentOrder :=
    find (fun o => (Order.id o =? orderId)%string) (orders self) in
  let previousStatus := option_map Order.status currentOrder in
  let shouldDecrementStock := shouldDecrementStock previousStatus newStatus in
  r <- remote (update_status orderId newStatus) ;;
  match r with
  | None => toast "Error"
  | Some _ =>
      (if shouldDecrementStock then decrementStockForOrder orderId
       else ret tt) ;;
      toast "Status Updated" ;;
      fetchOrders ;;
      match selectedOrder self with
      | Some s =>
          if (Order.id s =? orderId)%string then restatusSelected newStatus
          else ret tt
      | None => ret tt
      end
  end.

(** The stock column after one item has been applied, when every call
    succeeds: the first product of that name, its first variant of that
    grind and size, every row with that variant's id. *)
Definition resolve (d : Store.t) (item : OrderItem.t) : option (string * Z) :=
  match fst (select_product_id (OrderItem.product_name item) d) with
  | [] => None
  | productId :: _ =>
      match fst (select_variant productId (OrderItem.grind_type item)
                   (OrderItem.bag_size item) d) with
      | [] => None
      | v :: _ => Some v
      end
  end.

Definition apply_item (d : Store.t) (item : OrderItem.t) : Store.t :=
  match resolve d item with
  | None => d
  | Some (variant_id, stock_count) =>
      snd (update_stock_count variant_id
             (Z.max 0 (stock_count - OrderItem.quantity item)) d)
  end.

Definition apply_items (items : list OrderItem.t) (d : Store.t) : Store.t :=
  fold_left apply_item items d.

(** [.update({ stock_count: n }).eq("id", v)] as a function on stores. *)
Definition restock (v : string) (n : Z) (d : Store.t) : Store.t :=
  snd (update_stock_count v n d).

Definition variant_of (d : Store.t) (item : OrderItem.t) : option string :=
  option_map fst (resolve d item).

Definition stock_is (d : Store.t) (v : string) (n : Z) : Prop :=
  forall r, In r (Store.variants d) -> Variant.id r = v ->
            Variant.stock_count r = n.

(** The cells a stock decrement may touch. *)
Definition evolve (d : Store.t) (k : nat) (l : list Event) (w : World.t)
  : World.t :=
  World.set_log l (World.set_calls k (World.set_db d w)).

(** The status the admin page shows for an order, and whether the store
    has the order. *)
Definition shown_status (orderId : string) (w : World.t) : option string :=
  option_map Order.status
    (find (fun o => (Order.id o =? orderId)%string) (World.orders w)).

Definition stored (orderId : string) (d : Store.t) : Prop :=
  exists o, In o (Store.orders d) /\ Order.id o = orderId.

(** The admin's clicks, each from the render that follows the previous
    one. *)
Fixpoint clicks (orderId : string) (statuses : list string) : M unit :=
  match statuses with
  | [] => ret tt
  | s :: rest =>
      on (fun self => handleStatusChange self orderId s) ;;
      clicks orderId rest
  end.

End AdminOrders.

(** No remote call fails. *)
Definition reliable (w : World.t) : Prop :=
  forall n, fails (World.env w) n = false.


(** ** The cart and its stored rows *)

Module CartSync.


End CartSync.

(** ** A sample shop *)

Module Sample.

Definition uuid (n : nat) : string :=
  ("uuid-" ++ String (ascii_of_nat (48 + n)) "")%string.

Definition shop_env (sdk : option (RazorpayOptions -> GatewayOutcome)) : Env :=
  {| fails := fun _ => false;
     gen_random_uuid := uuid;
     now := Z.of_nat;
     Razorpay := sdk;
     razorpayKeyId := Some "rzp_test_key" |}.

(** A gateway that accepts every payment. *)
Definition always_pays (_ : RazorpayOptions) : GatewayOutcome :=
  Paid "pay_1".

Definition alice : User.t := User.mk "u1" "alice@example.com".

Definition yirgacheffe : CartItem.t :=
  CartItem.mk "c1" "p1" "Ethiopian Yirgacheffe" "/yirgacheffe.png"
    650 2 "whole_bean" "250g".

Definition supremo : CartItem.t :=
  CartItem.mk "c2" "p2" "Colombian Supremo" "/supremo.png"
    200 1 "fine" "250g".



Definition address : ShippingInfo.t :=
  ShippingInfo.mk "Alice" "alice@example.com" "9876543210" "1 Bean Street"
    "Mumbai" "Maharashtra" "400001".

Definition catalogue : list Product.t :=
  [Product.mk "p1" "Ethiopian Yirgacheffe";
   Product.mk "p2" "Colombian Supremo"].

Definition shelves : list Variant.t :=
  [Variant.mk "v1" "p1" "250g" "whole_bean" 650 10;
   Variant.mk "v2" "p2" "250g" "fine" 200 2].

Definition store : Store.t :=
  Store.mk [CartRow.mk "u1" yirgacheffe; CartRow.mk "u1" supremo]
    [] [] catalogue shelves.

(** Alice at the review step, with a cart worth 1500. *)
Definition shop (sdk : option (RazorpayOptions -> GatewayOutcome))
           (method : string) : World.t :=
  World.mk (shop_env sdk) store 0 0 [] (Some alice) [yirgacheffe; supremo]
    3 false method address [] None.

(** Nobody signed in: the cart mirror is empty. *)
Definition signed_out : World.t :=
  World.mk (shop_env None) store 0 0 [] None [] 1 false "razorpay"
    (ShippingInfo.mk "" "" "" "" "" "" "") [] None.

(** The back office: one new order of Alice's, shown as stored. *)
Definition admin : User.t := User.mk "u0" "admin@example.com".

Definition alices_order : Order.t :=
  Order.mk "o1" "u1" "new" 1500 address "pending" None 7.

Definition three_yirgacheffe : OrderItem.t :=
  OrderItem.mk "i1"
    (NewOrderItem.mk "o1" "Ethiopian Yirgacheffe" "whole_bean" "250g" 3 650).

Definition five_supremo : OrderItem.t :=
  OrderItem.mk "i2"
    (NewOrderItem.mk "o1" "Colombian Supremo" "fine" "250g" 5 200).

Definition back_office : World.t :=
  World.mk (shop_env None)
    (Store.mk [] [alices_order] [three_yirgacheffe; five_supremo]
       catalogue shelves)
    0 0 [] (Some admin) [] 1 false "razorpay" address [alices_order] None.

End Sample.

(** ** A cart with prices in hundredths *)

Module Pennies.




(** Alice signed in, nothing in her cart. *)
Definition shop : World.t :=
  World.mk (Sample.shop_env None)
    (Store.mk [] [] [] Sample.catalogue Sample.shelves)
    0 0 [] (Some Sample.alice) [] 1 false "razorpay" Sample.address [] None.

End Pennies.

(** * Properties *)

(** ** Remote calls in a reliable world *)

Lemma remote_ok {A} (q : Store.t -> A * Store.t) (w : World.t) :
  reliable w ->
  remote q w =
  (Some (fst (q (World.db w))),
   World.set_db (snd (q (World.db w)))
     (World.set_calls (S (World.calls w)) w)).
Proof.
  intros H. unfold remote. rewrite H. destruct (q (World.db w)); reflexivity.
Qed.

Lemma reliable_same_env (w w' : World.t) :
  World.env w' = World.env w -> reliable w -> reliable w'.
Proof. unfold reliable. intros E H n. rewrite E. apply H. Qed.

(** ** Cart aggregator *)

Module CartFacts.
Import CartProvider.


Lemma fold_left_line_total (l : list CartItem.t) (a : Q) :
  (fold_left
     (fun sum item =>
        sum + CartItem.price item * inject_Z (CartItem.quantity item))%Q l a
   == a + sum_line_totals l)%Q.
Proof.
  revert a. induction l as [|i l IH]; intros a; cbn.
  - unfold sum_line_totals. cbn. ring.
  - rewrite IH. unfold sum_line_totals. cbn. ring.
Qed.

End CartFacts.

Module CartTotals.
Import CartProvider CartSync.















End CartTotals.

Module CartMutations.
Import CartProvider.

(** C7: [updateQuantity(id, q)] with q <= 0 removes the item (from the
    provider's items and from the store); with q > 0 it overwrites the
    stored quantity of that item with q and touches no other item. *)
Theorem updateQuantity_removes_or_overwrites
        (w : World.t) (id : string) (q : Z) :
  reliable w ->
  let w' := exec (on (fun self => updateQuantity self id q)) w in
  (q <= 0 ->
   World.items w'
   = filter (fun i => negb (CartItem.id i =? id)%string) (World.items w)
   /\ (forall i, In i (World.items w') -> CartItem.id i <> id)
   /\ (forall r, In r (Store.cart_items (World.db w')) ->
                 CartItem.id (CartRow.item r) <> id))
  /\ (0 < q ->
      World.items w'
      = map (fun i => if (CartItem.id i =? id)%string
                      then CartItem.with_quantity q i else i)
            (World.items w)
      /\ (forall i, In i (World.items w') -> CartItem.id i = id ->
                    CartItem.quantity i = q)
      /\ (forall r, In r (Store.cart_items (World.db w')) ->
                    CartItem.id (CartRow.item r) = id ->
                    CartItem.quantity (CartRow.item r) = q)).
Proof.
  intros H. cbv zeta. unfold exec, on, updateQuantity. split; intros Hq.
  - apply Z.leb_le in Hq. rewrite Hq.
    unfold removeFromCart, bind. rewrite (remote_ok _ _ H). cbn.
    split; [reflexivity|]. split.
    + intros i Hi. apply filter_In in Hi. destruct Hi as [_ Hi].
      apply negb_true_iff, String.eqb_neq in Hi. exact Hi.
    + intros r Hr. apply filter_In in Hr. destruct Hr as [_ Hr].
      apply negb_true_iff, String.eqb_neq in Hr. exact Hr.
  - assert (Hq' : (q <=? 0) = false) by (apply Z.leb_gt; lia). rewrite Hq'.
    unfold bind. rewrite (remote_ok _ _ H). cbn.
    split; [reflexivity|]. split.
    + intros i Hi E. apply in_map_iff in Hi. destruct Hi as [j [Hj _]].
      destruct (String.eqb_spec (CartItem.id j) id) as [Ej|Ej]; subst i.
      * reflexivity.
      * contradiction.
    + intros r Hr E. apply in_map_iff in Hr. destruct Hr as [j [Hj _]].
      destruct (String.eqb_spec (CartItem.id (CartRow.item j)) id) as [Ej|Ej];
        subst r.
      * reflexivity.
      * contradiction.
Qed.

Lemma updateQuantity_sample :
  reliable (Sample.shop None "cod")
  /\ World.items
       (exec (on (fun self => updateQuantity self "c1" (-1)))
             (Sample.shop None "cod"))
     = [Sample.supremo]
  /\ World.items
       (exec (on (fun self => updateQuantity self "c1" 0))
             (Sample.shop None "cod"))
     = [Sample.supremo]
  /\ World.items
       (exec (on (fun self => updateQuantity self "c1" 5))
             (Sample.shop None "cod"))
     = [CartItem.with_quantity 5 Sample.yirgacheffe; Sample.supremo].
Proof.
  assert (R : reliable (Sample.shop None "cod")) by (intros n; reflexivity).
  split; [exact R|].
  destruct (updateQuantity_removes_or_overwrites _ "c1" (-1) R) as [A _].
  destruct (updateQuantity_removes_or_overwrites _ "c1" 0 R) as [B _].
  destruct (updateQuantity_removes_or_overwrites _ "c1" 5 R) as [_ C].
  destruct (A ltac:(lia)) as [EA _].
  destruct (B ltac:(lia)) as [EB _].
  destruct (C ltac:(lia)) as [EC _].
  rewrite EA, EB, EC. repeat split.
Defined.








End CartMutations.

(** ** Checkout: step-1 validation *)

Module ShippingStep.
Import Checkout.

Lemma test_digits_spec (n : nat) (s : string) :
  test_digits n s = true <-> String.length s = n /\ all_digits s.
Proof.
  unfold all_digits. revert s.
  induction n as [|n IH]; intros [|c s]; cbn.
  - split; [intros _; split; [reflexivity | constructor] | reflexivity].
  - split; [discriminate | intros [E _]; discriminate].
  - split; [discriminate | intros [E _]; discriminate].
  - rewrite andb_true_iff, IH. split.
    + intros [Hc [Hl Hs]]. split; [congruence | constructor; assumption].
    + intros [Hl Hs]. inversion Hs; subst. injection Hl as Hl. auto.
Qed.

Lemma falsy_spec (s : string) : falsy s = false <-> s <> "".
Proof. unfold falsy. apply String.eqb_neq. Qed.

Lemma validateShipping_result (self : t) (w : World.t) :
  fst (validateShipping self w)
  = let s := shippingInfo self in
    negb (falsy (ShippingInfo.name s) || falsy (ShippingInfo.email s)
          || falsy (ShippingInfo.phone s) || falsy (ShippingInfo.address s)
          || falsy (ShippingInfo.city s) || falsy (ShippingInfo.state s)
          || falsy (ShippingInfo.pincode s))
    && test_digits 6 (ShippingInfo.pincode s)
    && test_digits 10 (ShippingInfo.phone s).
Proof.
  unfold validateShipping. cbv zeta.
  destruct (falsy _ || _ || _ || _ || _ || _ || _); [reflexivity|].
  destruct (test_digits 6 _); [|reflexivity].
  destruct (test_digits 10 _); reflexivity.
Qed.

(** C8: step-1 validation succeeds exactly when all seven shipping fields
    are non-empty, the phone is exactly 10 digits and the pincode exactly 6
    digits.  It rejects phone "12345" and pincode "1234", accepts phone
    "9876543210" with pincode "400001"; and [handleNextStep] leaves step 1
    only when validation succeeds. *)
Theorem validateShipping_spec :
  (forall self w,
      fst (validateShipping self w) = true <-> shipping_ok (shippingInfo self))
  /\ (forall u c step method name email address city state pincode w,
         fst (validateShipping
                (mk u c step method
                    (ShippingInfo.mk name email "12345" address city state
                                     pincode)) w) = false)
  /\ (forall u c step method name email phone address city state w,
         fst (validateShipping
                (mk u c step method
                    (ShippingInfo.mk name email phone address city state
                                     "1234")) w) = false)
  /\ (forall u c step method w,
         fst (validateShipping
                (mk u c step method
                    (ShippingInfo.mk "Alice" "alice@example.com" "9876543210"
                       "1 Bean Street" "Mumbai" "Maharashtra" "400001")) w)
         = true)
  /\ (forall w,
         World.currentStep (exec (on handleNextStep) w)
         = if (World.currentStep w =? 1)
              && negb (fst (validateShipping (render w) w))
           then World.currentStep w
           else Z.min (World.currentStep w + 1) 3)
  /\ (forall w,
         World.currentStep w = 1 ->
         ~ shipping_ok (World.shippingInfo w) ->
         World.currentStep (exec (on handleNextStep) w) = 1).
Proof.
  assert (Hiff : forall self w,
             fst (validateShipping self w) = true
             <-> shipping_ok (shippingInfo self)).
  { intros self w. rewrite validateShipping_result. cbv zeta.
    unfold shipping_ok.
    rewrite !andb_true_iff, negb_true_iff, !orb_false_iff,
      !falsy_spec, !test_digits_spec.
    tauto. }
  assert (Hstep : forall w,
             World.currentStep (exec (on handleNextStep) w)
             = if (World.currentStep w =? 1)
                  && negb (fst (validateShipping (render w) w))
               then World.currentStep w
               else Z.min (World.currentStep w + 1) 3).
  { intros w. unfold exec, on, handleNextStep, bind. cbn [currentStep render].
    destruct (World.currentStep w =? 1); [|reflexivity].
    cbn [andb].
    assert (Hs : World.currentStep (snd (validateShipping (render w) w))
                 = World.currentStep w).
    { unfold validateShipping. cbv zeta.
      destruct (falsy _ || _ || _ || _ || _ || _ || _); [reflexivity|].
      destruct (test_digits 6 _); [|reflexivity].
      destruct (test_digits 10 _); reflexivity. }
    destruct (validateShipping (render w) w) as [ok w1]. cbn in *.
    destruct ok; cbn; [rewrite Hs; reflexivity | exact Hs]. }
  split; [exact Hiff|].
  split.
  { intros. rewrite validateShipping_result. cbv zeta.
    cbn [shippingInfo ShippingInfo.phone].
    change (test_digits 10 "12345") with false. apply andb_false_r. }
  split.
  { intros. rewrite validateShipping_result. cbv zeta.
    cbn [shippingInfo ShippingInfo.pincode].
    change (test_digits 6 "1234") with false.
    rewrite andb_false_r. reflexivity. }
  split; [intros; reflexivity|].
  split; [exact Hstep|].
  intros w H1 Hbad. rewrite Hstep, H1. cbn.
  destruct (fst (validateShipping (render w) w)) eqn:E; [|reflexivity].
  exfalso. apply Hbad. apply (Hiff (render w) w). exact E.
Qed.

Lemma validateShipping_sample :
  World.currentStep (exec (on handleNextStep) Sample.signed_out) = 1
  /\ World.log (exec (on handleNextStep) Sample.signed_out)
     = [Toast "Missing Information"]
  /\ World.currentStep
       (exec (on handleNextStep)
             (World.set_currentStep 1 (Sample.shop None "cod"))) = 2.
Proof.
  destruct validateShipping_spec as [_ [_ [_ [_ [Hstep _]]]]].
  rewrite !Hstep. repeat split.
Defined.

End ShippingStep.

(** ** Checkout: placing the order *)

Module PlaceOrder.
Import Checkout.

Lemma mint_many_run (n : nat) (w : World.t) :
  mint_many n w
  = (map (gen_random_uuid (World.env w)) (seq (World.minted w) n),
     World.set_minted (n + World.minted w) w).
Proof.
  revert w. induction n as [|n IH]; intros w.
  - destruct w; reflexivity.
  - cbn [mint_many]. unfold bind, mint. rewrite IH. cbn.
    destruct w; cbn. rewrite Nat.add_succ_r. reflexivity.
Qed.

(** Evaluate [handlePlaceOrder] in a world split into its cells, with [H]
    the reliability of its environment. *)
Ltac place_order H :=
  unfold exec, on, handlePlaceOrder, render, CartProvider.render,
    CartProvider.clearCart, order_failed, Razorpay.isLoaded,
    Razorpay.openPayment;
  repeat (progress
            (cbn -[CartProvider.totalPrice map List.length mint_many
                   String.eqb combine seq filter app payment_amount];
             unfold bind, remote, mint, timestamp, setLoading, toast,
               navigate, console_error, emit, CartProvider.setItems;
             rewrite ?H, ?mint_many_run)).

Lemma rows_copied (order : Order.t) (items : list CartItem.t) :
  forall ids : list string,
    List.length ids = List.length items ->
    Forall2 (copied order)
      (map (fun p => OrderItem.mk (fst p) (snd p))
           (combine ids (map (order_item_of order) items)))
      items.
Proof.
  induction items as [|i items IH]; intros [|x ids] E; cbn in *;
    try discriminate; constructor.
  - repeat split.
  - apply IH. congruence.
Qed.

(** C4: placing an order with a payment method other than the gateway
    creates one order with status "new", payment_status "pending" and
    total_amount the cart total, one order item per cart line copying
    product_name, grind_type, bag_size, quantity and unit_price, empties the
    cart, and hands nothing to the payment collaborator. *)
Theorem cash_on_delivery_order (w : World.t) (u : User.t) :
  World.user w = Some u ->
  reliable w ->
  World.paymentMethod w <> "razorpay" ->
  let w' := exec (on handlePlaceOrder) w in
  let order := new_order w u in
  (Order.status order = "new"
   /\ Order.payment_status order = "pending"
   /\ Order.total_amount order
      = CartProvider.totalPrice (CartProvider.render w))
  /\ In order (Store.orders (World.db w'))
  /\ List.length (Store.orders (World.db w'))
     = S (List.length (Store.orders (World.db w)))
  /\ (exists rows,
         Store.order_items (World.db w')
         = Store.order_items (World.db w) ++ rows
         /\ Forall2 (copied order) rows (World.items w))
  /\ World.items w' = []
  /\ (forall r, In r (Store.cart_items (World.db w')) ->
                CartRow.user_id r <> User.id u)
  /\ World.log w'
     = World.log w ++ [Toast "Order Placed Successfully!";
                       Navigate "/profile"].
Proof.
  intros Hu H Hm. unfold reliable in H. cbv zeta. unfold new_order.
  destruct w as [e d c m l us its cs ld pm si os so].
  cbn in Hu, H, Hm. subst us. apply String.eqb_neq in Hm.
  place_order H. rewrite Hm. place_order H.
  split; [repeat split|].
  split.
  { rewrite map_app. apply in_or_app. right. cbn.
    rewrite String.eqb_refl. left; reflexivity. }
  split.
  { rewrite length_map, length_app. cbn. lia. }
  split.
  { eexists. split; [reflexivity|].
    apply rows_copied. rewrite length_map, length_seq, length_map.
    reflexivity. }
  split; [reflexivity|].
  split.
  { intros r Hr. apply filter_In in Hr. destruct Hr as [_ Hr].
    apply negb_true_iff, String.eqb_neq in Hr. exact Hr. }
  rewrite <- app_assoc. reflexivity.
Qed.

Lemma cash_on_delivery_sample :
  World.user (Sample.shop None "cod") = Some Sample.alice
  /\ reliable (Sample.shop None "cod")
  /\ World.paymentMethod (Sample.shop None "cod") <> "razorpay"
  /\ new_order (Sample.shop None "cod") Sample.alice
     = Order.mk "uuid-0" "u1" "new" 1500 Sample.address "pending" None 0
  /\ In (new_order (Sample.shop None "cod") Sample.alice)
        (Store.orders
           (World.db (exec (on handlePlaceOrder) (Sample.shop None "cod"))))
  /\ World.items (exec (on handlePlaceOrder) (Sample.shop None "cod")) = [].
Proof.
  assert (R : reliable (Sample.shop None "cod")) by (intros n; reflexivity).
  assert (N : World.paymentMethod (Sample.shop None "cod") <> "razorpay")
    by discriminate.
  destruct (cash_on_delivery_order (Sample.shop None "cod") Sample.alice
              eq_refl R N) as [_ [A [_ [_ [B _]]]]].
  repeat split; assumption.
Defined.

(** C10: with the gateway selected and the payment SDK not loaded,
    [handlePlaceOrder] has inserted the order (status "new", payment_status
    "pending") and all its order items, issues no further remote call,
    reports the gateway error and leaves the cart as it was. *)
Theorem gateway_unavailable_leaves_order (w : World.t) (u : User.t) :
  World.user w = Some u ->
  reliable w ->
  World.paymentMethod w = "razorpay" ->
  Razorpay (World.env w) = None ->
  let w' := exec (on handlePlaceOrder) w in
  let order := new_order w u in
  (Order.status order = "new" /\ Order.payment_status order = "pending")
  /\ Store.orders (World.db w') = Store.orders (World.db w) ++ [order]
  /\ (exists rows,
         Store.order_items (World.db w')
         = Store.order_items (World.db w) ++ rows
         /\ Forall2 (copied order) rows (World.items w))
  /\ World.calls w' = (2 + World.calls w)%nat
  /\ World.items w' = World.items w
  /\ Store.cart_items (World.db w') = Store.cart_items (World.db w)
  /\ World.log w' = World.log w ++ [Toast "Payment Gateway Error"]
  /\ World.loading w' = false.
Proof.
  intros Hu H Hm Hsdk. unfold reliable in H. cbv zeta. unfold new_order.
  destruct w as [e d c m l us its cs ld pm si os so].
  cbn in Hu, H, Hm, Hsdk. subst us. apply String.eqb_eq in Hm.
  place_order H. rewrite Hm. place_order H. rewrite Hsdk. place_order H.
  split; [split; reflexivity|].
  split; [reflexivity|].
  split.
  { eexists. split; [reflexivity|].
    apply rows_copied. rewrite length_map, length_seq, length_map.
    reflexivity. }
  repeat split.
Qed.

Lemma gateway_unavailable_sample :
  World.user (Sample.shop None "razorpay") = Some Sample.alice
  /\ reliable (Sample.shop None "razorpay")
  /\ Store.orders
       (World.db (exec (on handlePlaceOrder) (Sample.shop None "razorpay")))
     = [Order.mk "uuid-0" "u1" "new" 1500 Sample.address "pending" None 0]
  /\ World.items (exec (on handlePlaceOrder) (Sample.shop None "razorpay"))
     = [Sample.yirgacheffe; Sample.supremo].
Proof.
  assert (R : reliable (Sample.shop None "razorpay"))
    by (intros n; reflexivity).
  destruct (gateway_unavailable_leaves_order (Sample.shop None "razorpay")
              Sample.alice eq_refl R eq_refl eq_refl)
    as [_ [A [_ [_ [B _]]]]].
  split; [reflexivity|]. split; [exact R|].
  rewrite A, B. split; reflexivity.
Defined.

Lemma divided_amount (n : Z) :
  (inject_Z n / 1000 == inject_Z n)%Q <-> n = 0.
Proof.
  unfold Qeq, Qdiv, Qmult, Qinv, inject_Z. cbn. lia.
Qed.

(** C1, on the code: the amount handed to the gateway is
    round(T * 100) / 1000 for the cart total T, which is round(T * 100)
    only when that is 0.  For the cart total 1500 the gateway is opened
    with 150, not 150000. *)
Theorem gateway_amount_is_divided :
  (forall T : Q,
      (payment_amount T == inject_Z (Math_round (T * 100)) / 1000)%Q
      /\ ((payment_amount T == inject_Z (Math_round (T * 100)))%Q
          <-> Math_round (T * 100)%Q = 0))
  /\ (forall w u sdk key,
         World.user w = Some u ->
         reliable w ->
         World.paymentMethod w = "razorpay" ->
         Razorpay (World.env w) = Some sdk ->
         razorpayKeyId (World.env w) = Some key ->
         key <> "" ->
         exists options,
           In (RazorpayOpen options)
              (World.log (exec (on handlePlaceOrder) w))
           /\ rz_amount options
              = payment_amount
                  (CartProvider.totalPrice (CartProvider.render w)))
  /\ (CartProvider.totalPrice
        (CartProvider.render (Sample.shop (Some Sample.always_pays)
                                          "razorpay"))
      == 1500)%Q
  /\ exists options,
      World.log
        (exec (on handlePlaceOrder)
              (Sample.shop (Some Sample.always_pays) "razorpay"))
      = [RazorpayOpen options; Toast "Payment Successful!";
         Navigate "/profile"]
      /\ (rz_amount options == 150)%Q
      /\ ~ (rz_amount options == inject_Z (Math_round (1500 * 100)))%Q.
Proof.
  split.
  { intros T. split; [reflexivity|]. unfold payment_amount.
    apply divided_amount. }
  split.
  { intros w u sdk key Hu H Hm Hsdk Hkey Hne. unfold reliable in H.
    destruct w as [e d c m l us its cs ld pm si os so].
    cbn in Hu, H, Hm, Hsdk, Hkey. subst us.
    apply String.eqb_eq in Hm. apply String.eqb_neq in Hne.
    place_order H. rewrite Hm. place_order H.
    rewrite Hsdk. place_order H. rewrite Hsdk, Hkey, Hne. place_order H.
    exists {| rz_key := key;
              rz_amount :=
                payment_amount
                  (CartProvider.totalPrice (CartProvider.mk (Some u) its));
              rz_currency := "INR";
              rz_name := "Tiny Tiger Coffee";
              rz_description :=
                ("Order #" ++ substring 0 8 (gen_random_uuid e m))%string |}.
    split; [|reflexivity].
    destruct (sdk _); place_order H; rewrite ?in_app_iff; cbn; tauto. }
  split; [reflexivity|].
  eexists. split; [reflexivity|]. split.
  - reflexivity.
  - intros E. discriminate E.
Qed.

Lemma gateway_amount_sample :
  reliable (Sample.shop (Some Sample.always_pays) "razorpay")
  /\ exists options,
      In (RazorpayOpen options)
         (World.log
            (exec (on handlePlaceOrder)
                  (Sample.shop (Some Sample.always_pays) "razorpay")))
      /\ (rz_amount options == 150)%Q.
Proof.
  assert (R : reliable (Sample.shop (Some Sample.always_pays) "razorpay"))
    by (intros n; reflexivity).
  split; [exact R|].
  destruct gateway_amount_is_divided as [_ [G _]].
  destruct (G (Sample.shop (Some Sample.always_pays) "razorpay")
              Sample.alice Sample.always_pays "rzp_test_key"
              eq_refl R eq_refl eq_refl eq_refl ltac:(discriminate))
    as [options [Hin Ha]].
  exists options. split; [exact Hin|]. rewrite Ha. reflexivity.
Defined.

End PlaceOrder.

(** ** Admin: stock decrement *)

Module StockDecrement.
Import AdminOrders.

Lemma firstn_1_map_filter {A B} (f : A -> B) (g : A -> A) (p : A -> bool)
      (l : list A) :
  (forall x, p (g x) = p x) ->
  firstn 1 (map f (filter p (map g l)))
  = map (fun x => f (g x)) (firstn 1 (filter p l)).
Proof.
  intros Hp. induction l as [|x l IH]; cbn; [reflexivity|].
  rewrite Hp. destruct (p x); cbn; [reflexivity | exact IH].
Qed.

Lemma firstn_1_map {A B} (f : A -> B) (l : list A) :
  firstn 1 (map f l) = map f (firstn 1 l).
Proof. destruct l; reflexivity. Qed.

Lemma resolve_restock (d : Store.t) (v : string) (n : Z) (i : OrderItem.t) :
  resolve (restock v n d) i
  = option_map (fun p => (fst p, if (fst p =? v)%string then n else snd p))
               (resolve d i).
Proof.
  unfold resolve, restock, select_product_id, select_variant,
    update_stock_count. cbn -[firstn filter map].
  destruct (firstn 1 (map Product.id _)) as [|pid ?]; [reflexivity|].
  rewrite firstn_1_map_filter.
  2:{ intros x. destruct (Variant.id x =? v)%string; reflexivity. }
  rewrite firstn_1_map.
  destruct (firstn 1 (filter _ (Store.variants d))) as [|r ?];
    [reflexivity|].
  cbn. destruct (Variant.id r =? v)%string; reflexivity.
Qed.

Lemma stock_is_restock (d : Store.t) (v : string) (n : Z) :
  stock_is (restock v n d) v n.
Proof.
  intros r Hr E. unfold restock in Hr. cbn in Hr.
  apply in_map_iff in Hr. destruct Hr as [r0 [Hr0 _]].
  destruct (String.eqb_spec (Variant.id r0) v) as [E0|E0]; subst r.
  - reflexivity.
  - contradiction.
Qed.

Lemma stock_is_restock_other (d : Store.t) (v v' : string) (n n' : Z) :
  v' <> v -> stock_is d v n -> stock_is (restock v' n' d) v n.
Proof.
  intros Hv Hs r Hr E. unfold restock in Hr. cbn in Hr.
  apply in_map_iff in Hr. destruct Hr as [r0 [Hr0 Hin]].
  destruct (String.eqb_spec (Variant.id r0) v') as [E0|E0]; subst r.
  - cbn in E. congruence.
  - apply Hs; assumption.
Qed.

Lemma apply_item_resolved (d : Store.t) (i : OrderItem.t) (v : string) (s : Z) :
  resolve d i = Some (v, s) ->
  apply_item d i = restock v (Z.max 0 (s - OrderItem.quantity i)) d.
Proof. intros E. unfold apply_item. rewrite E. reflexivity. Qed.

Lemma apply_item_unresolved (d : Store.t) (i : OrderItem.t) :
  resolve d i = None -> apply_item d i = d.
Proof. intros E. unfold apply_item. rewrite E. reflexivity. Qed.

Lemma variant_of_restock (d : Store.t) (v : string) (n : Z) (i : OrderItem.t) :
  variant_of (restock v n d) i = variant_of d i.
Proof.
  unfold variant_of. rewrite resolve_restock.
  destruct (resolve d i) as [[v0 s0]|]; reflexivity.
Qed.

Lemma variant_of_apply_item (d : Store.t) (j i : OrderItem.t) :
  variant_of (apply_item d j) i = variant_of d i.
Proof.
  destruct (resolve d j) as [[v s]|] eqn:E.
  - rewrite (apply_item_resolved _ _ _ _ E). apply variant_of_restock.
  - rewrite (apply_item_unresolved _ _ E). reflexivity.
Qed.

Lemma variants_of_apply_item (d : Store.t) (j : OrderItem.t)
      (l : list OrderItem.t) :
  map (variant_of (apply_item d j)) l = map (variant_of d) l.
Proof. apply map_ext. intros i. apply variant_of_apply_item. Qed.

Lemma variant_of_apply_items (l : list OrderItem.t) (d : Store.t)
      (i : OrderItem.t) :
  variant_of (apply_items l d) i = variant_of d i.
Proof.
  revert d. induction l as [|j l IH]; intros d; cbn; [reflexivity|].
  unfold apply_items in IH. rewrite IH. apply variant_of_apply_item.
Qed.

(** An item that names another variant leaves this one alone. *)
Lemma apply_item_other (d : Store.t) (j i : OrderItem.t) (v : string) (s : Z) :
  variant_of d j <> Some v ->
  resolve d i = Some (v, s) ->
  resolve (apply_item d j) i = Some (v, s)
  /\ (stock_is d v s -> stock_is (apply_item d j) v s).
Proof.
  intros Hj Hi. unfold variant_of in Hj.
  destruct (resolve d j) as [[vj sj]|] eqn:E.
  - rewrite (apply_item_resolved _ _ _ _ E). cbn in Hj.
    assert (Hne : vj <> v) by congruence.
    split.
    + rewrite resolve_restock, Hi. cbn.
      destruct (String.eqb_spec v vj); [congruence | reflexivity].
    + apply stock_is_restock_other. exact Hne.
  - rewrite (apply_item_unresolved _ _ E). auto.
Qed.

Lemma apply_items_other (l : list OrderItem.t) :
  forall (d : Store.t) (i : OrderItem.t) (v : string) (s : Z),
    ~ In (Some v) (map (variant_of d) l) ->
    resolve d i = Some (v, s) ->
    stock_is d v s ->
    resolve (apply_items l d) i = Some (v, s)
    /\ stock_is (apply_items l d) v s.
Proof.
  induction l as [|j l IH]; intros d i v s Hn Hi Hs; cbn; [auto|].
  cbn in Hn.
  destruct (apply_item_other d j i v s) as [Hi' Hs'];
    [intuition congruence | exact Hi |].
  apply IH; [|exact Hi' | exact (Hs' Hs)].
  rewrite variants_of_apply_item. tauto.
Qed.

(** The item's own step. *)
Lemma apply_item_self (d : Store.t) (i : OrderItem.t) (v : string) (s : Z) :
  resolve d i = Some (v, s) ->
  let n := Z.max 0 (s - OrderItem.quantity i) in
  resolve (apply_item d i) i = Some (v, n) /\ stock_is (apply_item d i) v n.
Proof.
  intros Hi n. rewrite (apply_item_resolved _ _ _ _ Hi). fold n. split.
  - rewrite resolve_restock, Hi. cbn. rewrite String.eqb_refl. reflexivity.
  - apply stock_is_restock.
Qed.

(** One pass over lines that name pairwise different variants. *)
Lemma apply_items_once (l : list OrderItem.t) :
  forall (d : Store.t) (i : OrderItem.t) (v : string) (s : Z),
    NoDup (map (variant_of d) l) ->
    In i l ->
    resolve d i = Some (v, s) ->
    let n := Z.max 0 (s - OrderItem.quantity i) in
    resolve (apply_items l d) i = Some (v, n)
    /\ stock_is (apply_items l d) v n.
Proof.
  induction l as [|j l IH]; intros d i v s Hnd Hin Hi n; [contradiction|].
  cbn in Hnd. inversion Hnd as [|x xs Hj Hnd']; subst x xs.
  assert (Hv : variant_of d i = Some v)
    by (unfold variant_of; rewrite Hi; reflexivity).
  cbn [apply_items fold_left]. fold (apply_items l (apply_item d j)).
  destruct Hin as [E|Hin].
  - subst j. destruct (apply_item_self d i v s Hi) as [Hi' Hs'].
    apply apply_items_other; [|exact Hi'|exact Hs'].
    rewrite variants_of_apply_item. rewrite <- Hv. exact Hj.
  - assert (Hjv : variant_of d j <> Some v).
    { intros E. apply Hj. rewrite E, <- Hv. apply in_map. exact Hin. }
    destruct (apply_item_other d j i v s Hjv Hi) as [Hi' _].
    apply IH; [|exact Hin|exact Hi'].
    rewrite variants_of_apply_item. exact Hnd'.
Qed.

(** Two passes: the decrement is applied twice, each clamped at zero. *)
Lemma apply_items_twice (l : list OrderItem.t) (d : Store.t)
      (i : OrderItem.t) (v : string) (s : Z) :
  NoDup (map (variant_of d) l) ->
  In i l ->
  resolve d i = Some (v, s) ->
  let q := OrderItem.quantity i in
  stock_is (apply_items (l ++ l) d) v (Z.max 0 (Z.max 0 (s - q) - q)).
Proof.
  intros Hnd Hin Hi q. unfold apply_items. rewrite fold_left_app.
  fold (apply_items l d). fold (apply_items l (apply_items l d)).
  destruct (apply_items_once l d i v s Hnd Hin Hi) as [Hi1 _].
  apply (apply_items_once l (apply_items l d) i v _); [|exact Hin|exact Hi1].
  rewrite (map_ext _ (variant_of d)); [exact Hnd|].
  intros a. apply variant_of_apply_items.
Qed.

Lemma evolve_reliable d k l w : reliable w -> reliable (evolve d k l w).
Proof. apply reliable_same_env. reflexivity. Qed.

Lemma decrementStockForItem_run (item : OrderItem.t) (w : World.t) :
  reliable w ->
  exists k l,
    decrementStockForItem item w
    = (tt, evolve (apply_item (World.db w) item) k l w).
Proof.
  intros H. unfold reliable in H.
  destruct w as [e d c m lg us its cs ld pm si os so]. cbn in H.
  unfold decrementStockForItem, apply_item, resolve, bind, remote,
    console_error, emit, evolve, select_product_id, select_variant,
    update_stock_count.
  cbn -[firstn filter map Z.max Z.sub].
  rewrite H.
  destruct (firstn 1 (map Product.id _)) as [|productId ?].
  { do 2 eexists. reflexivity. }
  cbn -[firstn filter map Z.max Z.sub]. rewrite H.
  destruct (firstn 1 (map _ (filter _ (Store.variants d))))
    as [|[variant_id variant_stock_count] ?].
  { do 2 eexists. reflexivity. }
  cbn -[firstn filter map Z.max Z.sub]. rewrite H.
  do 2 eexists. reflexivity.
Qed.

Lemma for_each_run (items : list OrderItem.t) :
  forall w : World.t,
    reliable w ->
    exists k l,
      for_each decrementStockForItem items w
      = (tt, evolve (apply_items items (World.db w)) k l w).
Proof.
  induction items as [|item items IH]; intros w H.
  - exists (World.calls w), (World.log w). destruct w; reflexivity.
  - cbn [for_each]. unfold bind.
    destruct (decrementStockForItem_run item w H) as [k [l E]]. rewrite E.
    destruct (IH _ (evolve_reliable (apply_item (World.db w) item) k l w H))
      as [k' [l' E']].
    rewrite E'. exists k', l'. reflexivity.
Qed.

Lemma decrementStockForOrder_run (orderId : string) (w : World.t) :
  reliable w ->
  exists k l,
    decrementStockForOrder orderId w
    = (tt, evolve
             (apply_items (fst (select_order_items orderId (World.db w)))
                          (World.db w)) k l w).
Proof.
  intros H. unfold decrementStockForOrder, bind.
  rewrite (remote_ok _ _ H). cbn [fst snd select_order_items].
  destruct (for_each_run
              (filter (fun r => (OrderItem.order_id r =? orderId)%string)
                      (Store.order_items (World.db w)))
              (World.set_db (World.db w)
                 (World.set_calls (S (World.calls w)) w)))
    as [k [l E]].
  { apply (reliable_same_env w); [reflexivity | exact H]. }
  rewrite E. exists k, l. reflexivity.
Qed.

Lemma In_insert_desc (o x : Order.t) (l : list Order.t) :
  In x (insert_desc o l) <-> x = o \/ In x l.
Proof.
  induction l as [|y l IH]; cbn.
  - intuition congruence.
  - destruct (Order.created_at y <? Order.created_at o); cbn.
    + intuition congruence.
    + rewrite IH. intuition congruence.
Qed.

Lemma In_order_desc (x : Order.t) (l : list Order.t) :
  In x (order_desc l) <-> In x l.
Proof.
  induction l as [|y l IH]; cbn; [reflexivity|].
  rewrite In_insert_desc, IH. intuition congruence.
Qed.

Lemma stored_update_status (orderId s : string) (d : Store.t) :
  stored orderId d -> stored orderId (snd (update_status orderId s d)).
Proof.
  intros [o [Ho E]]. exists (Order.with_status s o). split; [|exact E].
  cbn. apply in_map_iff. exists o. split; [|exact Ho].
  rewrite (proj2 (String.eqb_eq _ _) E). reflexivity.
Qed.

Lemma status_after_update (orderId s : string) (d : Store.t) :
  stored orderId d ->
  option_map Order.status
    (find (fun o => (Order.id o =? orderId)%string)
          (order_desc (Store.orders (snd (update_status orderId s d)))))
  = Some s.
Proof.
  intros Hst. apply (stored_update_status orderId s) in Hst.
  destruct Hst as [o [Ho E]].
  destruct (find _ _) as [x|] eqn:F.
  - apply find_some in F. destruct F as [Hx Ex].
    apply String.eqb_eq in Ex. apply (proj1 (In_order_desc _ _)) in Hx.
    cbn in Hx.
    apply in_map_iff in Hx. destruct Hx as [y [Hy _]].
    destruct (String.eqb_spec (Order.id y) orderId) as [Ey|Ey]; subst x.
    + reflexivity.
    + contradiction.
  - exfalso.
    assert (N : (Order.id o =? orderId)%string = false).
    { apply (find_none _ _ F). apply In_order_desc. exact Ho. }
    apply String.eqb_neq in N. contradiction.
Qed.

Lemma apply_item_frame (d : Store.t) (i : OrderItem.t) :
  Store.orders (apply_item d i) = Store.orders d
  /\ Store.order_items (apply_item d i) = Store.order_items d.
Proof.
  unfold apply_item. destruct (resolve d i) as [[v s]|]; split; reflexivity.
Qed.

Lemma apply_items_frame (l : list OrderItem.t) (d : Store.t) :
  Store.orders (apply_items l d) = Store.orders d
  /\ Store.order_items (apply_items l d) = Store.order_items d.
Proof.
  revert d. induction l as [|i l IH]; intros d; cbn; [split; reflexivity|].
  destruct (IH (apply_item d i)) as [A B].
  destruct (apply_item_frame d i) as [A' B'].
  unfold apply_items in A, B. rewrite A, B. split; assumption.
Qed.

Lemma apply_item_set_orders (o : list Order.t) (d : Store.t)
      (i : OrderItem.t) :
  apply_item (Store.set_orders o d) i = Store.set_orders o (apply_item d i).
Proof.
  unfold apply_item.
  change (resolve (Store.set_orders o d) i) with (resolve d i).
  destruct (resolve d i) as [[v s]|]; reflexivity.
Qed.

Lemma apply_items_set_orders (l : list OrderItem.t) (o : list Order.t)
      (d : Store.t) :
  apply_items l (Store.set_orders o d) = Store.set_orders o (apply_items l d).
Proof.
  revert d. induction l as [|i l IH]; intros d; cbn; [reflexivity|].
  rewrite apply_item_set_orders. apply IH.
Qed.

(** One click on the status selector, every call succeeding. *)
Lemma handleStatusChange_run (orderId s : string) (w : World.t) :
  reliable w ->
  let d1 := snd (update_status orderId s (World.db w)) in
  let d2 :=
    if shouldDecrementStock (shown_status orderId w) s
    then apply_items (fst (select_order_items orderId d1)) d1
    else d1 in
  exists k l so,
    exec (on (fun self => handleStatusChange self orderId s)) w
    = World.set_selectedOrder so
        (World.set_orders (order_desc (Store.orders d2)) (evolve d2 k l w)).
Proof.
  intros H. cbv zeta. unfold exec, on, handleStatusChange, shown_status.
  cbn [render orders selectedOrder]. unfold bind at 1.
  rewrite (remote_ok _ _ H). cbn [fst snd].
  set (d1 := snd (update_status orderId s (World.db w))).
  set (w1 := World.set_db d1 (World.set_calls (S (World.calls w)) w)).
  assert (H1 : reliable w1)
    by (apply (reliable_same_env w); [reflexivity | exact H]).
  destruct (shouldDecrementStock _ s).
  - unfold bind at 1.
    destruct (decrementStockForOrder_run orderId w1 H1) as [k [l E]].
    rewrite E. cbn [World.db w1 World.set_db].
    change (World.db w1) with d1.
    set (d2 := apply_items (fst (select_order_items orderId d1)) d1).
    unfold bind at 1. unfold toast, emit. unfold bind at 1.
    unfold fetchOrders, bind at 1.
    rewrite remote_ok
      by (apply (reliable_same_env w); [reflexivity | exact H]).
    destruct w as [e d c m lg us its cs ld pm si os so].
    destruct so as [sel|]; cbn.
    + destruct (Order.id sel =? orderId)%string; cbn;
        do 3 eexists; reflexivity.
    + do 3 eexists; reflexivity.
  - unfold bind at 1. unfold ret. unfold bind at 1. unfold toast, emit.
    unfold bind at 1. unfold fetchOrders, bind at 1.
    rewrite remote_ok
      by (apply (reliable_same_env w); [reflexivity | exact H]).
    destruct w as [e d c m lg us its cs ld pm si os so].
    destruct so as [sel|]; cbn.
    + destruct (Order.id sel =? orderId)%string; cbn;
        do 3 eexists; reflexivity.
    + do 3 eexists; reflexivity.
Qed.

Lemma click (orderId s st : string) (w : World.t) :
  reliable w ->
  stored orderId (World.db w) ->
  shown_status orderId w = Some st ->
  let w' := exec (on (fun self => handleStatusChange self orderId s)) w in
  let d1 := snd (update_status orderId s (World.db w)) in
  reliable w'
  /\ stored orderId (World.db w')
  /\ shown_status orderId w' = Some s
  /\ World.db w'
     = if shouldDecrementStock (Some st) s
       then apply_items (fst (select_order_items orderId d1)) d1
       else d1.
Proof.
  intros H Hst Hsh. cbv zeta.
  destruct (handleStatusChange_run orderId s w H) as [k [l [so E]]].
  rewrite E, Hsh. clear E.
  set (d1 := snd (update_status orderId s (World.db w))).
  set (d2 := if shouldDecrementStock (Some st) s
             then apply_items (fst (select_order_items orderId d1)) d1
             else d1).
  assert (Ho : Store.orders d2 = Store.orders d1).
  { unfold d2. destruct (shouldDecrementStock (Some st) s); [|reflexivity].
    apply apply_items_frame. }
  split; [apply (reliable_same_env w); [reflexivity | exact H]|].
  split.
  { cbn [World.db World.set_selectedOrder World.set_orders evolve
         World.set_log World.set_calls World.set_db].
    destruct (stored_update_status orderId s _ Hst) as [x [Hx Ex]].
    exists x. rewrite Ho. split; assumption. }
  split; [|reflexivity].
  unfold shown_status.
  cbn [World.orders World.set_selectedOrder World.set_orders].
  rewrite Ho. apply status_after_update. exact Hst.
Qed.

(** C2: for an order shown as "new" on an admin page that mirrors the
    store, the clicks new -> shipped -> processing -> shipped run the stock
    decrement on the first and on the third click and not on the second:
    the variants end as after applying every line of the order twice, and
    when the lines name pairwise different variants each such variant's
    stock is max(0, max(0, stock - quantity) - quantity).  Nothing records
    that the order was already decremented. *)
Theorem status_toggle_decrements_twice
        (w : World.t) (orderId : string) (o : Order.t) :
  reliable w ->
  World.orders w = order_desc (Store.orders (World.db w)) ->
  find (fun x => (Order.id x =? orderId)%string) (World.orders w) = Some o ->
  Order.status o = "new" ->
  let items := fst (select_order_items orderId (World.db w)) in
  let w' := exec (clicks orderId ["shipped"; "processing"; "shipped"]) w in
  (shouldDecrementStock (Some "new") "shipped" = true
   /\ shouldDecrementStock (Some "shipped") "processing" = false
   /\ shouldDecrementStock (Some "processing") "shipped" = true)
  /\ Store.variants (World.db w')
     = Store.variants (apply_items (items ++ items) (World.db w))
  /\ (NoDup (map (variant_of (World.db w)) items) ->
      forall i v s,
        In i items ->
        resolve (World.db w) i = Some (v, s) ->
        stock_is (World.db w') v
          (Z.max 0 (Z.max 0 (s - OrderItem.quantity i)
                    - OrderItem.quantity i))).
Proof.
  intros H Hsync Hfind Hnew. cbv zeta.
  assert (Hst : stored orderId (World.db w)).
  { apply find_some in Hfind. destruct Hfind as [Hin E].
    rewrite Hsync in Hin. apply (proj1 (In_order_desc _ _)) in Hin.
    exists o. split; [exact Hin | apply String.eqb_eq; exact E]. }
  assert (Hsh : shown_status orderId w = Some "new").
  { unfold shown_status. rewrite Hfind. cbn. rewrite Hnew. reflexivity. }
  unfold clicks, exec, bind.
  destruct (click orderId "shipped" "new" w H Hst Hsh) as [H1 [Hst1 [Hsh1 D1]]].
  unfold exec in *.
  destruct (on (fun self => handleStatusChange self orderId "shipped") w)
    as [[] w1]. cbn [snd] in *.
  destruct (click orderId "processing" "shipped" w1 H1 Hst1 Hsh1)
    as [H2 [Hst2 [Hsh2 D2]]].
  unfold exec in *.
  destruct (on (fun self => handleStatusChange self orderId "processing") w1)
    as [[] w2]. cbn [snd] in *.
  destruct (click orderId "shipped" "processing" w2 H2 Hst2 Hsh2)
    as [H3 [Hst3 [Hsh3 D3]]].
  unfold exec in *.
  destruct (on (fun self => handleStatusChange self orderId "shipped") w2)
    as [[] w3]. cbn [snd ret] in *.
  assert (E : Store.variants (World.db w3)
              = Store.variants
                  (apply_items
                     (fst (select_order_items orderId (World.db w))
                      ++ fst (select_order_items orderId (World.db w)))
                     (World.db w))).
  { rewrite D3, D2, D1.
    change (shouldDecrementStock (Some "new") "shipped") with true.
    change (shouldDecrementStock (Some "shipped") "processing") with false.
    change (shouldDecrementStock (Some "processing") "shipped") with true.
    cbv iota.
    unfold update_status, select_order_items. cbn [fst snd].
    cbn [Store.order_items Store.set_orders].
    rewrite !apply_items_set_orders.
    cbn [Store.order_items Store.set_orders].
    rewrite (proj2 (apply_items_frame _ _)).
    rewrite ?apply_items_set_orders.
    cbn [Store.variants Store.set_orders].
    unfold apply_items. rewrite fold_left_app. reflexivity. }
  split; [repeat split|]. split; [exact E|].
  intros Hnd i v s Hin Hi r Hr. rewrite E in Hr.
  revert r Hr. apply apply_items_twice; assumption.
Qed.

Lemma status_toggle_sample :
  reliable Sample.back_office
  /\ World.orders Sample.back_office
     = order_desc (Store.orders (World.db Sample.back_office))
  /\ Order.status Sample.alices_order = "new"
  /\ Store.variants
       (World.db
          (exec (clicks "o1" ["shipped"; "processing"; "shipped"])
                Sample.back_office))
     = [Variant.mk "v1" "p1" "250g" "whole_bean" 650 4;
        Variant.mk "v2" "p2" "250g" "fine" 200 0].
Proof.
  assert (R : reliable Sample.back_office) by (intros n; reflexivity).
  destruct (status_toggle_decrements_twice Sample.back_office "o1"
              Sample.alices_order R eq_refl eq_refl eq_refl)
    as [_ [E _]].
  split; [exact R|]. split; [reflexivity|]. split; [reflexivity|].
  rewrite E. reflexivity.
Defined.

(** C3: for an order item whose product and variant lookups succeed, the
    decrement writes max(0, old_stock - quantity) to the variant: every row
    of that variant holds it, reading the variant again returns it, and it
    is never negative; stock 2 less quantity 5 is 0. *)
Theorem decrement_clamps_at_zero
        (w : World.t) (item : OrderItem.t) (v : string) (old_stock : Z) :
  reliable w ->
  resolve (World.db w) item = Some (v, old_stock) ->
  let w' := exec (decrementStockForItem item) w in
  let new_stock := Z.max 0 (old_stock - OrderItem.quantity item) in
  Store.variants (World.db w')
  = map (fun r => if (Variant.id r =? v)%string
                  then Variant.with_stock_count new_stock r else r)
        (Store.variants (World.db w))
  /\ stock_is (World.db w') v new_stock
  /\ resolve (World.db w') item = Some (v, new_stock)
  /\ 0 <= new_stock
  /\ (old_stock = 2 -> OrderItem.quantity item = 5 -> new_stock = 0).
Proof.
  intros H Hr. cbv zeta. unfold exec.
  destruct (decrementStockForItem_run item w H) as [k [l E]]. rewrite E.
  cbn [snd evolve World.db World.set_log World.set_calls World.set_db].
  destruct (apply_item_self _ _ _ _ Hr) as [A B].
  rewrite (apply_item_resolved _ _ _ _ Hr) in *.
  split; [reflexivity|]. split; [exact B|]. split; [exact A|].
  split; lia.
Qed.

Lemma decrement_clamps_sample :
  reliable Sample.back_office
  /\ resolve (World.db Sample.back_office) Sample.five_supremo
     = Some ("v2", 2)
  /\ Store.variants
       (World.db
          (exec (decrementStockForItem Sample.five_supremo)
                Sample.back_office))
     = [Variant.mk "v1" "p1" "250g" "whole_bean" 650 10;
        Variant.mk "v2" "p2" "250g" "fine" 200 0].
Proof.
  assert (R : reliable Sample.back_office) by (intros n; reflexivity).
  destruct (decrement_clamps_at_zero Sample.back_office Sample.five_supremo
              "v2" 2 R eq_refl) as [E _].
  split; [exact R|]. split; [reflexivity|].
  rewrite E. reflexivity.
Defined.

End StockDecrement.
